(** * clipwhisper: time-window arithmetic and ffmpeg argument rendering

    A shallow embedding of [src/src/lib.rs] (crate [clipwhisper]):
    [TargetTimeStamp::new], [TargetTimeStamp::bind_values],
    [CommandChunk::format_chunk], [ClipCommand::render_arguments] and
    [impl From<Args> for ClipCommand].  Rust [u32] values are [Z] with the
    wrap-around written out; a panic ([expect]) is [None]. *)

From Stdlib Require Import ZArith Lia Ascii String.
From stdpp Require Import base gmap strings pretty list.

Open Scope Z_scope.

(* ------------------------------------------------------------------ *)
(** ** Machine integers and [f32] *)

Definition u32_modulus : Z := 2 ^ 32.

(** [u32::max_value()] *)
Definition u32_max : Z := u32_modulus - 1.

Definition is_u32 (x : Z) : Prop := 0 <= x <= u32_max.

(** [u32::overflowing_add]: the wrapped sum and the overflow flag. *)
Definition overflowing_add (a b : Z) : Z * bool :=
  ((a + b) mod u32_modulus, u32_modulus <=? a + b).

(** An [f32] value: NaN, an infinity, or a finite value [m * 2 ^ e]. *)
Inductive f32 : Type :=
| F32_nan
| F32_inf (negative : bool)
| F32_fin (m e : Z).

(** Finite values really representable in single precision
    (24-bit significand, exponents of normal and subnormal numbers). *)
Definition f32_wf (x : f32) : bool :=
  match x with
  | F32_fin m e => (Z.abs m <? 2 ^ 24) && (-149 <=? e) && (e <=? 104)
  | _ => true
  end.

(** Mathematical truncation toward zero of a finite value. *)
Definition f32_trunc (x : f32) : option Z :=
  match x with
  | F32_fin m e => Some (if 0 <=? e then m * 2 ^ e else Z.quot m (2 ^ (- e)))
  | _ => None
  end.

(** Rust's [x as u32] for [x : f32]: rounds toward zero, NaN gives 0,
    values out of range saturate to [0] or [u32::MAX]. *)
Definition f32_as_u32 (x : f32) : Z :=
  match x with
  | F32_nan => 0
  | F32_inf true => 0
  | F32_inf false => u32_max
  | F32_fin _ _ =>
      let t := default 0 (f32_trunc x) in
      if t <? 0 then 0 else if u32_max <? t then u32_max else t
  end.

(* ------------------------------------------------------------------ *)
(** ** [TargetTimeStamp] *)

Record TargetTimeStamp : Type := {
  start : Z;
  end_ : Z  (* field [end] of the Rust struct *)
}.

(** [TargetTimeStamp::new] *)
Definition new (offset duration : Z) : TargetTimeStamp :=
  let start0 := offset in
  let end0 :=
    match overflowing_add offset duration with
    | (_, true) => u32_max
    | (e, false) => e
    end in
  {| start := start0; end_ := end0 |}.

(** [TargetTimeStamp::bind_values]: the method takes [&mut self] and
    returns [*self]; both are the window computed here. *)
Definition bind_values (self : TargetTimeStamp) (max_length : f32)
  : TargetTimeStamp :=
  let video_length := f32_as_u32 max_length in
  let start1 := if video_length <? start self then video_length else start self in
  let end1 := if video_length <? end_ self then video_length else end_ self in
  {| start := start1; end_ := end1 |}.

Definition window_ok (w : TargetTimeStamp) : Prop := start w <= end_ w.

(** The single-precision value nearest to 5.9: 12373197 * 2^-21. *)
Definition f32_5_9 : f32 := F32_fin 12373197 (-21).

(* ------------------------------------------------------------------ *)
(** ** [interpolator::format]

    [format_chunk] delegates to [interpolator::format], a third-party
    crate (not part of this repository) that runs the format-string
    language of [std::fmt] at runtime: [{{] and [}}] are escaped braces,
    [{name}] is replaced by the [Display] output of the value bound to
    [name], [{name:spec}] applies a format spec, and an unknown name or a
    malformed string is an error.  The grammar is followed character by
    character; what a non-empty spec does to a value is left abstract
    ([display_with_spec], [None] for an error), so that every result
    proved below holds whatever the crate does with specs.  The scanner
    is stricter than the crate in two places: a lone [}] (which the crate
    copies) and blanks around a placeholder name (which the crate trims)
    are errors here; no result below depends on either. *)

Inductive format_error : Type :=
| MissingValue (name : string)
| UnmatchedClose
| ExpectedClose
| SpecError (name spec : string).

(** Position of the scanner: in literal text, after [{], inside a
    placeholder name, inside a format spec, or after [}]. *)
Inductive fmt_state : Type :=
| FText
| FOpen
| FName (acc : string)
| FSpec (name spec : string)
| FClose.

Definition is_ident_char (c : ascii) : bool :=
  let n := Ascii.nat_of_ascii c in
  (Nat.leb 48 n && Nat.leb n 57) || (Nat.leb 65 n && Nat.leb n 90)
  || (Nat.leb 97 n && Nat.leb n 122) || Nat.eqb n 95.

(** [Display] of a [u32]: plain decimal digits. *)
Definition display_u32 (v : Z) : string := pretty (Z.to_N v).

Definition emit (p : string) (r : format_error + string) : format_error + string :=
  match r with
  | inr s => inr (p +:+ s)
  | inl e => inl e
  end.

Section Interpolator.

Variable display_with_spec : string -> Z -> option string.

Fixpoint format_go (ctx : gmap string Z) (st : fmt_state) (s : string)
  : format_error + string :=
  match s with
  | EmptyString =>
      match st with
      | FText => inr ""
      | FClose => inl UnmatchedClose
      | _ => inl ExpectedClose
      end
  | String c rest =>
      match st with
      | FText =>
          if Ascii.eqb c "{" then format_go ctx FOpen rest
          else if Ascii.eqb c "}" then format_go ctx FClose rest
          else emit (String c "") (format_go ctx FText rest)
      | FOpen =>
          if Ascii.eqb c "{" then emit "{" (format_go ctx FText rest)
          else if Ascii.eqb c "}" then
            match ctx !! "" with
            | Some v => emit (display_u32 v) (format_go ctx FText rest)
            | None => inl (MissingValue "")
            end
          else if Ascii.eqb c ":" then format_go ctx (FSpec "" "") rest
          else if is_ident_char c then format_go ctx (FName (String c "")) rest
          else inl ExpectedClose
      | FName acc =>
          if Ascii.eqb c "}" then
            match ctx !! acc with
            | Some v => emit (display_u32 v) (format_go ctx FText rest)
            | None => inl (MissingValue acc)
            end
          else if Ascii.eqb c ":" then format_go ctx (FSpec acc "") rest
          else if is_ident_char c then format_go ctx (FName (acc +:+ String c "")) rest
          else inl ExpectedClose
      | FSpec name spec =>
          if Ascii.eqb c "}" then
            match ctx !! name with
            | Some v =>
                match display_with_spec spec v with
                | Some t => emit t (format_go ctx FText rest)
                | None => inl (SpecError name spec)
                end
            | None => inl (MissingValue name)
            end
          else format_go ctx (FSpec name (spec +:+ String c "")) rest
      | FClose =>
          if Ascii.eqb c "}" then emit "}" (format_go ctx FText rest)
          else inl UnmatchedClose
      end
  end.

(** [interpolator::format(format, context)] *)
Definition format (fmt : string) (ctx : gmap string Z) : format_error + string :=
  format_go ctx FText fmt.

End Interpolator.

(* ------------------------------------------------------------------ *)
(** ** [CommandChunk], [ClipCommand], [Args] *)

Record CommandChunk : Type := {
  flag : string;
  value : string
}.

Record ClipCommand : Type := {
  executable : string;
  input : CommandChunk;
  video_filter : CommandChunk;
  audio_filter : CommandChunk;
  output : CommandChunk;
  target : TargetTimeStamp
}.

(** [args::Args] (the fields the core reads). *)
Record Args : Type := {
  args_input : string;
  args_output : string;
  args_duration : Z;
  args_offset : Z
}.

Definition video_filter_template : string :=
  "select='between(t,{start},{end})',setpts=N/FRAME_RATE/TB".

Definition audio_filter_template : string :=
  "aselect='between(t,{start},{end})',asetpts=N/SR/TB".

(** [impl From<Args> for ClipCommand] *)
Definition from_args (args : Args) : ClipCommand := {|
  executable := "ffmpeg";
  input := {| flag := "-i"; value := args_input args |};
  video_filter := {| flag := "-vf"; value := video_filter_template |};
  audio_filter := {| flag := "-af"; value := audio_filter_template |};
  output := {| flag := "-o"; value := args_output args |};
  target := new (args_offset args) (args_duration args)
|}.

Section Rendering.

Variable display_with_spec : string -> Z -> option string.

(** The [HashMap] of [format_chunk]: ["start"] and ["end"] bound to the
    window's bounds. *)
Definition formats (target : TargetTimeStamp) : gmap string Z :=
  list_to_map [("start", start target); ("end", end_ target)].

(** [CommandChunk::format_chunk]; the [expect] panic is [None]. *)
Definition format_chunk (self : CommandChunk) (target : TargetTimeStamp)
  : option CommandChunk :=
  match format display_with_spec (value self) (formats target) with
  | inr v => Some {| flag := flag self; value := v |}
  | inl _ => None
  end.

(** [ClipCommand::render_arguments]; a panic in either [format_chunk]
    is [None]. *)
Definition render_arguments (self : ClipCommand) : option (list string) :=
  match format_chunk (video_filter self) (target self) with
  | None => None
  | Some vf =>
      match format_chunk (audio_filter self) (target self) with
      | None => None
      | Some af =>
          let arguments :=
            flat_map (fun it => [flag it; value it]) [input self; vf; af] in
          let arguments := arguments ++ ["-y"] in
          Some (arguments ++ [value (output self)])
      end
  end.

(** [render_arguments] borrows [&self]: the command is returned as it
    was, so a caller can render again. *)
Definition render_arguments_st (self : ClipCommand)
  : option (list string) * ClipCommand :=
  (render_arguments self, self).

End Rendering.

(* ------------------------------------------------------------------ *)
(** ** Templates as the format language reads them

    A template value written from literal text without braces, escaped
    braces [{{] / [}}] and placeholders [{name}] (no format spec). *)

Inductive piece : Type :=
| PText (s : string)
| PEscOpen
| PEscClose
| PHole (name : string).

Definition piece_str (p : piece) : string :=
  match p with
  | PText s => s
  | PEscOpen => "{{"
  | PEscClose => "}}"
  | PHole n => "{" +:+ n +:+ "}"
  end.

Definition template_of (ps : list piece) : string :=
  fold_right (fun p acc => piece_str p +:+ acc) "" ps.

Fixpoint no_brace (s : string) : bool :=
  match s with
  | EmptyString => true
  | String c rest => negb (Ascii.eqb c "{") && negb (Ascii.eqb c "}") && no_brace rest
  end.

Fixpoint all_ident (s : string) : bool :=
  match s with
  | EmptyString => true
  | String c rest => is_ident_char c && all_ident rest
  end.

Definition piece_wf (p : piece) : bool :=
  match p with
  | PText s => no_brace s
  | PHole EmptyString => false
  | PHole n => all_ident n
  | _ => true
  end.

(** What a piece stands for under a context: a placeholder is the
    decimal form of its bound value. *)
Definition piece_value (ctx : gmap string Z) (p : piece) : option string :=
  match p with
  | PText s => Some s
  | PEscOpen => Some "{"
  | PEscClose => Some "}"
  | PHole n => display_u32 <$> ctx !! n
  end.

Fixpoint expand (ctx : gmap string Z) (ps : list piece) : option string :=
  match ps with
  | [] => Some ""
  | p :: ps' =>
      match piece_value ctx p, expand ctx ps' with
      | Some a, Some b => Some (a +:+ b)
      | _, _ => None
      end
  end.

Definition hole_names (ps : list piece) : list string :=
  flat_map (fun p => match p with PHole n => [n] | _ => [] end) ps.

Definition result_value (r : format_error + string) : option string :=
  match r with
  | inr s => Some s
  | inl _ => None
  end.

(** The rendering the spec describes for a template value: every
    occurrence of [{start}] and of [{end}] replaced textually. *)
Fixpoint replace_go (fuel : nat) (pat rep s : string) : string :=
  match fuel with
  | O => s
  | S fuel' =>
      match s with
      | EmptyString => EmptyString
      | String c rest =>
          if String.prefix pat s then
            rep +:+ replace_go fuel' pat rep
                      (String.substring (String.length pat)
                         (String.length s - String.length pat) s)
          else String c (replace_go fuel' pat rep rest)
      end
  end.

Definition replace_all (pat rep s : string) : string :=
  replace_go (String.length s) pat rep s.

Definition spec_render_value (value : string) (target : TargetTimeStamp) : string :=
  replace_all "{end}" (display_u32 (end_ target))
    (replace_all "{start}" (display_u32 (start target)) value).

(** A concrete choice for the crate's spec handling (every spec refused),
    used only to evaluate closed instances. *)
Definition spec_refused : string -> Z -> option string := fun _ _ => None.

(* ------------------------------------------------------------------ *)
(** ** [main.rs]: probe, clamp, render, run

    [main] parses [Args], asks [ffprobe] for the input's length
    ([get_max_length]), clamps the window, renders the arguments and runs
    [ffmpeg].  The processes are the environment: [spawn exe args] is the
    result of [Command::new(exe).args(args).output()] ([None] when the
    process cannot be started, which [expect] turns into a panic).
    [read_duration] stands for [String::from_utf8(stdout)], [.trim()] and
    [.parse::<f32>()] together ([None] when one of them fails, again a
    panic); float parsing is left abstract. *)

Record ProcOutput : Type := {
  status_success : bool;
  stdout : list Byte.byte
}.

Inductive outcome : Type :=
| Exited_ok
| Panicked.

(** The argument list [get_max_length] gives [ffprobe]. *)
Definition ffprobe_args (input : string) : list string :=
  ["-v"; "error"; "-show_entries"; "format=duration";
   "-of"; "default=noprint_wrappers=1:nokey=1"; input].

(** [command.target = ...]: the command with another window. *)
Definition set_target (c : ClipCommand) (t : TargetTimeStamp) : ClipCommand := {|
  executable := executable c;
  input := input c;
  video_filter := video_filter c;
  audio_filter := audio_filter c;
  output := output c;
  target := t
|}.

Section Main.

Variable display_with_spec : string -> Z -> option string.
Variable read_duration : list Byte.byte -> option f32.
Variable spawn : string -> list string -> option ProcOutput.

(** [get_max_length]; [None] is a panic. *)
Definition get_max_length (input : string) : option f32 :=
  match spawn "ffprobe" (ffprobe_args input) with
  | None => None
  | Some out => read_duration (stdout out)
  end.

(** [main] after [Args::parse()]: the processes started, in order, and
    how the program ends. *)
Definition main_run (args : Args) : list (string * list string) * outcome :=
  let command := from_args args in
  let probe := ("ffprobe", ffprobe_args (value (input command))) in
  match get_max_length (value (input command)) with
  | None => ([probe], Panicked)
  | Some max_length =>
      let command := set_target command (bind_values (target command) max_length) in
      match render_arguments display_with_spec command with
      | None => ([probe], Panicked)
      | Some ffmpeg_args =>
          let trace := [probe; (executable command, ffmpeg_args)] in
          match spawn (executable command) ffmpeg_args with
          | None => (trace, Panicked)
          | Some out => (trace, if status_success out then Exited_ok else Panicked)
          end
      end
  end.

End Main.

(** The rendered filters of the fixed templates for a window. *)
Definition video_filter_value (w : TargetTimeStamp) : string :=
  "select='between(t," +:+ display_u32 (start w) +:+ "," +:+ display_u32 (end_ w)
  +:+ ")',setpts=N/FRAME_RATE/TB".

Definition audio_filter_value (w : TargetTimeStamp) : string :=
  "aselect='between(t," +:+ display_u32 (start w) +:+ "," +:+ display_u32 (end_ w)
  +:+ ")',asetpts=N/SR/TB".

(* ------------------------------------------------------------------ *)
(** ** Examples *)

Example f32_5_9_cast : f32_wf f32_5_9 = true /\ f32_as_u32 f32_5_9 = 5.
Proof. split; reflexivity. Qed.

Example new_overflow_example :
  new 4294967290 100 = {| start := 4294967290; end_ := 4294967295 |}.
Proof. reflexivity. Qed.

Example bind_values_example :
  bind_values (new 0 10) f32_5_9 = {| start := 0; end_ := 5 |}.
Proof. reflexivity. Qed.

Example format_chunk_example :
  format_chunk (fun _ _ => None) {| flag := "-vf"; value := video_filter_template |}
    {| start := 2; end_ := 12 |}
  = Some {| flag := "-vf"; value := "select='between(t,2,12)',setpts=N/FRAME_RATE/TB" |}.
Proof. reflexivity. Qed.

Example format_escape_example :
  format (fun _ _ => None) "{{start}}" (formats {| start := 2; end_ := 12 |}) = inr "{start}".
Proof. reflexivity. Qed.

Example spec_render_example :
  spec_render_value "a{start}b{end}{start}" {| start := 2; end_ := 12 |} = "a2b122".
Proof. reflexivity. Qed.

Example video_template_pieces :
  video_filter_template =
  template_of [PText "select='between(t,"; PHole "start"; PText ",";
               PHole "end"; PText ")',setpts=N/FRAME_RATE/TB"].
Proof. reflexivity. Qed.

(* ------------------------------------------------------------------ *)
(** ** Window construction and clamping *)

Lemma new_start (offset duration : Z) : start (new offset duration) = offset.
Proof. reflexivity. Qed.

Lemma new_end (offset duration : Z) :
  is_u32 offset -> is_u32 duration ->
  end_ (new offset duration)
  = if offset + duration <=? u32_max then offset + duration else u32_max.
Proof.
  unfold is_u32, u32_max, new, overflowing_add, u32_modulus. intros Ho Hd.
  simpl. destruct (2 ^ 32 <=? offset + duration) eqn:E.
  - apply Z.leb_le in E. destruct (offset + duration <=? 2 ^ 32 - 1) eqn:E2;
      [apply Z.leb_le in E2; lia | reflexivity].
  - apply Z.leb_gt in E. rewrite Z.mod_small by lia.
    destruct (offset + duration <=? 2 ^ 32 - 1) eqn:E2;
      [reflexivity | apply Z.leb_gt in E2; lia].
Qed.

Lemma bind_values_start (w : TargetTimeStamp) (L : f32) :
  start (bind_values w L) = Z.min (start w) (f32_as_u32 L).
Proof.
  unfold bind_values; simpl.
  destruct (f32_as_u32 L <? start w) eqn:E;
    [apply Z.ltb_lt in E | apply Z.ltb_ge in E]; lia.
Qed.

Lemma bind_values_end (w : TargetTimeStamp) (L : f32) :
  end_ (bind_values w L) = Z.min (end_ w) (f32_as_u32 L).
Proof.
  unfold bind_values; simpl.
  destruct (f32_as_u32 L <? end_ w) eqn:E;
    [apply Z.ltb_lt in E | apply Z.ltb_ge in E]; lia.
Qed.

Lemma f32_as_u32_range (L : f32) : is_u32 (f32_as_u32 L).
Proof.
  unfold is_u32, f32_as_u32, u32_max, u32_modulus.
  destruct L as [|[]|m e]; try lia.
  destruct (default 0 (f32_trunc (F32_fin m e)) <? 0) eqn:E1; [lia|].
  apply Z.ltb_ge in E1.
  destruct (2 ^ 32 - 1 <? default 0 (f32_trunc (F32_fin m e))) eqn:E2;
    [lia | apply Z.ltb_ge in E2; lia].
Qed.

Lemma f32_as_u32_trunc (L : f32) (t : Z) :
  f32_trunc L = Some t -> is_u32 t -> f32_as_u32 L = t.
Proof.
  unfold is_u32, u32_max, u32_modulus. intros Ht Hr.
  destruct L as [|[]|m e]; try discriminate. simpl in Ht |- *.
  injection Ht as <-.
  set (t := if 0 <=? e then m * 2 ^ e else Z.quot m (2 ^ (- e))) in *.
  unfold u32_max, u32_modulus in *.
  destruct (t <? 0) eqn:E1; [apply Z.ltb_lt in E1; lia|].
  destruct (2 ^ 32 - 1 <? t) eqn:E2; [apply Z.ltb_lt in E2; lia | reflexivity].
Qed.

(** C1: for all [u32] offset and duration, [new] yields [start <= end]
    (also when [offset + duration] overflows), and [bind_values] with any
    media length keeps [start <= end] for every window that has it. *)
Theorem window_invariant (offset duration : Z) :
  is_u32 offset -> is_u32 duration ->
  window_ok (new offset duration)
  /\ (forall L : f32, window_ok (bind_values (new offset duration) L))
  /\ (forall (w : TargetTimeStamp) (L : f32),
        window_ok w -> window_ok (bind_values w L)).
Proof.
  intros Ho Hd.
  assert (Hpres : forall (w : TargetTimeStamp) (L : f32),
             window_ok w -> window_ok (bind_values w L)).
  { unfold window_ok. intros w L Hw.
    rewrite bind_values_start, bind_values_end. lia. }
  assert (Hnew : window_ok (new offset duration)).
  { unfold window_ok. rewrite new_start, new_end by assumption.
    unfold is_u32 in *.
    destruct (offset + duration <=? u32_max) eqn:E; lia. }
  split; [exact Hnew | split; [intros L; apply Hpres, Hnew | exact Hpres]].
Qed.

Lemma window_invariant_witness :
  is_u32 4294967290 /\ is_u32 100 /\
  window_ok (new 4294967290 100)
  /\ (forall L : f32, window_ok (bind_values (new 4294967290 100) L))
  /\ (forall (w : TargetTimeStamp) (L : f32),
        window_ok w -> window_ok (bind_values w L)).
Proof.
  assert (H1 : is_u32 4294967290) by (unfold is_u32, u32_max, u32_modulus; lia).
  assert (H2 : is_u32 100) by (unfold is_u32, u32_max, u32_modulus; lia).
  split; [exact H1 | split; [exact H2 | apply (window_invariant 4294967290 100 H1 H2)]].
Defined.

(** C3: [new offset duration] has [start = offset] and
    [end = offset + duration] when the sum fits in a [u32], [end =
    4294967295] when it overflows; [new] is total (no error result).
    At offset 4294967290 and duration 100 the end saturates. *)
Theorem new_saturates (offset duration : Z) :
  is_u32 offset -> is_u32 duration ->
  start (new offset duration) = offset
  /\ (offset + duration <= 4294967295 -> end_ (new offset duration) = offset + duration)
  /\ (4294967295 < offset + duration -> end_ (new offset duration) = 4294967295)
  /\ new 4294967290 100 = {| start := 4294967290; end_ := 4294967295 |}.
Proof.
  intros Ho Hd. rewrite new_start, new_end by assumption.
  unfold u32_max, u32_modulus.
  split; [reflexivity|]. split; [|split].
  - intros H. destruct (offset + duration <=? 2 ^ 32 - 1) eqn:E;
      [reflexivity | apply Z.leb_gt in E; lia].
  - intros H. destruct (offset + duration <=? 2 ^ 32 - 1) eqn:E;
      [apply Z.leb_le in E; lia | reflexivity].
  - reflexivity.
Qed.

Lemma new_saturates_witness :
  is_u32 4294967290 /\ is_u32 100 /\
  start (new 4294967290 100) = 4294967290
  /\ (4294967290 + 100 <= 4294967295 -> end_ (new 4294967290 100) = 4294967290 + 100)
  /\ (4294967295 < 4294967290 + 100 -> end_ (new 4294967290 100) = 4294967295)
  /\ new 4294967290 100 = {| start := 4294967290; end_ := 4294967295 |}.
Proof.
  assert (H1 : is_u32 4294967290) by (unfold is_u32, u32_max, u32_modulus; lia).
  assert (H2 : is_u32 100) by (unfold is_u32, u32_max, u32_modulus; lia).
  split; [exact H1 | split; [exact H2 | apply (new_saturates 4294967290 100 H1 H2)]].
Defined.

(** C8: clamping is idempotent: for every window and every media length,
    [bind_values (bind_values w L) L = bind_values w L]. *)
Theorem bind_values_idempotent (w : TargetTimeStamp) (L : f32) :
  bind_values (bind_values w L) L = bind_values w L.
Proof.
  destruct (bind_values w L) as [s e] eqn:Hw.
  pose proof (bind_values_start w L) as Hs. pose proof (bind_values_end w L) as He.
  rewrite Hw in Hs, He. simpl in Hs, He.
  unfold bind_values; simpl. f_equal.
  - destruct (f32_as_u32 L <? s) eqn:E; [apply Z.ltb_lt in E; lia | reflexivity].
  - destruct (f32_as_u32 L <? e) eqn:E; [apply Z.ltb_lt in E; lia | reflexivity].
Qed.

(** C2, as stated, fails at a negative media length: [-2.0] is a valid
    [f32] whose truncation toward zero is [-2], but [-2.0 as u32] is [0],
    so with offset 0 and duration 10 the clamped window is [0, 0]:
    [end = 0] is not [<= -2] and [start] is not [-2] although [0 > -2]. *)
Lemma bind_values_negative_length :
  f32_wf (F32_fin (-1) 1) = true
  /\ f32_trunc (F32_fin (-1) 1) = Some (-2)
  /\ bind_values (new 0 10) (F32_fin (-1) 1) = {| start := 0; end_ := 0 |}
  /\ ~ (end_ (bind_values (new 0 10) (F32_fin (-1) 1)) <= -2)
  /\ ~ (start (bind_values (new 0 10) (F32_fin (-1) 1)) = -2).
Proof.
  split; [reflexivity|]. split; [reflexivity|]. split; [reflexivity|].
  simpl. split; lia.
Qed.

(** C2 (amended): with [T] the media length converted by Rust's
    [max_length as u32] (truncation toward zero for lengths in
    [[0, 2^32)], 0 for negative lengths and NaN, 4294967295 above), after
    [bind_values]: [end <= T]; [start = T] if [offset > T], else
    [start = offset]; [start <= end].  For 5.9 (as an [f32]), offset 0 and
    duration 10 the window is [0, 5]. *)
Theorem bind_values_clamps (offset duration : Z) (L : f32) :
  is_u32 offset -> is_u32 duration ->
  let T := f32_as_u32 L in
  let w := bind_values (new offset duration) L in
  end_ w <= T
  /\ (T < offset -> start w = T)
  /\ (offset <= T -> start w = offset)
  /\ start w <= end_ w
  /\ (forall t, f32_trunc L = Some t -> is_u32 t -> T = t)
  /\ bind_values (new 0 10) f32_5_9 = {| start := 0; end_ := 5 |}.
Proof.
  intros Ho Hd T w. subst T w.
  rewrite bind_values_start, bind_values_end, new_start.
  pose proof (proj1 (window_invariant offset duration Ho Hd)) as Hok.
  unfold window_ok in Hok. rewrite new_start in Hok.
  split; [lia|]. split; [lia|]. split; [lia|]. split; [lia|].
  split; [intros t Ht Hr; apply f32_as_u32_trunc; assumption | reflexivity].
Qed.

Lemma bind_values_clamps_witness :
  is_u32 0 /\ is_u32 10 /\
  (let T := f32_as_u32 f32_5_9 in
   let w := bind_values (new 0 10) f32_5_9 in
   end_ w <= T
   /\ (T < 0 -> start w = T)
   /\ (0 <= T -> start w = 0)
   /\ start w <= end_ w
   /\ (forall t, f32_trunc f32_5_9 = Some t -> is_u32 t -> T = t)
   /\ bind_values (new 0 10) f32_5_9 = {| start := 0; end_ := 5 |}).
Proof.
  assert (H1 : is_u32 0) by (unfold is_u32, u32_max, u32_modulus; lia).
  assert (H2 : is_u32 10) by (unfold is_u32, u32_max, u32_modulus; lia).
  split; [exact H1 | split; [exact H2 | apply (bind_values_clamps 0 10 f32_5_9 H1 H2)]].
Defined.

(* ------------------------------------------------------------------ *)
(** ** The format language on well-formed templates *)

Lemma string_app_cons (x : ascii) (a b : string) :
  String x a +:+ b = String x (a +:+ b).
Proof. reflexivity. Qed.

Lemma string_app_nil_l (a : string) : "" +:+ a = a.
Proof. reflexivity. Qed.

Lemma string_app_assoc (a b c : string) : (a +:+ b) +:+ c = a +:+ (b +:+ c).
Proof.
  induction a as [|x a IH]; [reflexivity|].
  rewrite !string_app_cons, IH. reflexivity.
Qed.

Lemma string_app_nil_r (a : string) : a +:+ "" = a.
Proof.
  induction a as [|x a IH]; [reflexivity|].
  rewrite string_app_cons, IH. reflexivity.
Qed.

Lemma emit_emit (a b : string) (r : format_error + string) :
  emit a (emit b r) = emit (a +:+ b) r.
Proof. destruct r; simpl; [reflexivity | now rewrite string_app_assoc]. Qed.

Lemma ident_not_special (c : ascii) :
  is_ident_char c = true ->
  Ascii.eqb c "{" = false /\ Ascii.eqb c "}" = false /\ Ascii.eqb c ":" = false.
Proof.
  intros Hc.
  destruct (Ascii.eqb c "{") eqn:E1; [apply Ascii.eqb_eq in E1; subst; discriminate|].
  destruct (Ascii.eqb c "}") eqn:E2; [apply Ascii.eqb_eq in E2; subst; discriminate|].
  destruct (Ascii.eqb c ":") eqn:E3; [apply Ascii.eqb_eq in E3; subst; discriminate|].
  auto.
Qed.

Section FormatLemmas.

Variable display_with_spec : string -> Z -> option string.
Variable ctx : gmap string Z.

Local Abbreviation go := (format_go display_with_spec ctx).

Lemma format_text (s r : string) :
  no_brace s = true -> go FText (s +:+ r) = emit s (go FText r).
Proof.
  induction s as [|c s IH]; intros Hs.
  - rewrite string_app_nil_l. destruct (go FText r); reflexivity.
  - rewrite string_app_cons. simpl in Hs |- *.
    apply andb_prop in Hs as [Hs Hrest]. apply andb_prop in Hs as [H1 H2].
    apply negb_true_iff in H1, H2. rewrite H1, H2, IH by exact Hrest.
    rewrite emit_emit. reflexivity.
Qed.

Lemma format_name (acc n r : string) :
  all_ident n = true ->
  go (FName acc) (n +:+ String "}" r)
  = match ctx !! (acc +:+ n) with
    | Some v => emit (display_u32 v) (go FText r)
    | None => inl (MissingValue (acc +:+ n))
    end.
Proof.
  revert acc. induction n as [|c n IH]; intros acc Hn.
  - rewrite string_app_nil_l, string_app_nil_r. reflexivity.
  - rewrite string_app_cons. simpl in Hn |- *.
    apply andb_prop in Hn as [Hc Hn].
    destruct (ident_not_special c Hc) as (_ & H2 & H3).
    rewrite H2, H3, Hc, IH by exact Hn.
    rewrite string_app_assoc, string_app_cons, string_app_nil_l. reflexivity.
Qed.

Lemma format_piece (p : piece) (r : string) :
  piece_wf p = true ->
  result_value (go FText (piece_str p +:+ r))
  = match piece_value ctx p with
    | Some a => option_map (fun b => a +:+ b) (result_value (go FText r))
    | None => None
    end.
Proof.
  intros Hp. destruct p as [s| | |n]; simpl in Hp |- *.
  - rewrite format_text by exact Hp. destruct (go FText r); reflexivity.
  - rewrite ?string_app_cons, ?string_app_nil_l. simpl.
    destruct (go FText r); reflexivity.
  - rewrite ?string_app_cons, ?string_app_nil_l. simpl.
    destruct (go FText r); reflexivity.
  - destruct n as [|c n]; [discriminate|].
    apply andb_prop in Hp as [Hc Hn].
    destruct (ident_not_special c Hc) as (H1 & H2 & H3).
    rewrite !string_app_assoc, !string_app_cons, !string_app_nil_l. simpl.
    rewrite H1, H2, H3, Hc.
    rewrite format_name by exact Hn.
    rewrite string_app_cons, string_app_nil_l.
    destruct (ctx !! String c n); simpl; [|reflexivity].
    destruct (go FText r); reflexivity.
Qed.

Lemma format_template (ps : list piece) :
  forallb piece_wf ps = true ->
  result_value (go FText (template_of ps)) = expand ctx ps.
Proof.
  induction ps as [|p ps IH]; simpl; intros Hps; [reflexivity|].
  apply andb_prop in Hps as [Hp Hps].
  rewrite format_piece by exact Hp. rewrite IH by exact Hps.
  destruct (piece_value ctx p), (expand ctx ps); reflexivity.
Qed.

End FormatLemmas.

Lemma expand_none (ctx : gmap string Z) (ps : list piece) :
  expand ctx ps = None <-> Exists (fun n => ctx !! n = None) (hole_names ps).
Proof.
  induction ps as [|p ps IH]; simpl.
  - split; [discriminate | intros H; inversion H].
  - destruct p as [s| | |n]; simpl.
    + destruct (expand ctx ps); rewrite <- IH; split; congruence.
    + destruct (expand ctx ps); rewrite <- IH; split; congruence.
    + destruct (expand ctx ps); rewrite <- IH; split; congruence.
    + rewrite Exists_cons, <- IH.
      destruct (ctx !! n) eqn:E, (expand ctx ps); simpl; split;
        intros H; try congruence; try (left; reflexivity); try (right; reflexivity);
        destruct H; congruence.
Qed.

Lemma formats_lookup (t : TargetTimeStamp) (n : string) :
  formats t !! n
  = if String.eqb n "start" then Some (start t)
    else if String.eqb n "end" then Some (end_ t) else None.
Proof.
  unfold formats. simpl. rewrite !lookup_insert, lookup_empty.
  destruct (String.eqb_spec n "start") as [->|H1]; [reflexivity|].
  destruct (String.eqb_spec n "end") as [->|H2]; [reflexivity|].
  repeat case_decide; congruence.
Qed.

Lemma format_chunk_flag (display_with_spec : string -> Z -> option string)
  (c c' : CommandChunk) (w : TargetTimeStamp) :
  format_chunk display_with_spec c w = Some c' -> flag c' = flag c.
Proof.
  unfold format_chunk. destruct (format _ _ _); [discriminate|].
  intros H. injection H as <-. reflexivity.
Qed.

Lemma format_chunk_template (display_with_spec : string -> Z -> option string)
  (f : string) (ps : list piece) (w : TargetTimeStamp) :
  forallb piece_wf ps = true ->
  format_chunk display_with_spec {| flag := f; value := template_of ps |} w
  = (fun v => {| flag := f; value := v |}) <$> expand (formats w) ps.
Proof.
  intros Hps. pose proof (format_template display_with_spec (formats w) ps Hps) as H.
  unfold format_chunk, format. simpl.
  destruct (format_go display_with_spec (formats w) FText (template_of ps)) as [e|v];
    simpl in H; rewrite <- H; reflexivity.
Qed.

Lemma piece_value_formats (w : TargetTimeStamp) :
  piece_value (formats w) (PHole "start") = Some (display_u32 (start w))
  /\ piece_value (formats w) (PHole "end") = Some (display_u32 (end_ w)).
Proof. unfold piece_value. rewrite !formats_lookup. split; reflexivity. Qed.

(** C5, as stated, fails on the template value ["{{start}}"]: it contains
    the text [{start}], but [{{] and [}}] are escaped braces of the format
    language, so rendering yields ["{start}"] and not ["{2}"]. *)
Lemma format_chunk_escaped_braces :
  format_chunk spec_refused {| flag := "-vf"; value := "{{start}}" |}
    {| start := 2; end_ := 12 |}
  = Some {| flag := "-vf"; value := "{start}" |}
  /\ spec_render_value "{{start}}" {| start := 2; end_ := 12 |} = "{2}"
  /\ "{start}" <> "{2}".
Proof. split; [reflexivity | split; [reflexivity | discriminate]]. Qed.

(** C5 (amended): for a template value written from literal text without
    braces, escaped braces [{{] / [}}] and placeholders [{name}] without a
    format spec, rendering against a window keeps the flag and reads the
    value as a format string: text is copied, [{{] / [}}] give [{] / [}],
    [{start}] and [{end}] give the window's bounds in plain decimal
    ([display_u32]); whenever rendering of any template succeeds the flag
    is the template's flag. *)
Theorem format_chunk_substitutes (display_with_spec : string -> Z -> option string)
  (f : string) (ps : list piece) (w : TargetTimeStamp) :
  forallb piece_wf ps = true ->
  format_chunk display_with_spec {| flag := f; value := template_of ps |} w
  = (fun v => {| flag := f; value := v |}) <$> expand (formats w) ps
  /\ piece_value (formats w) (PHole "start") = Some (display_u32 (start w))
  /\ piece_value (formats w) (PHole "end") = Some (display_u32 (end_ w))
  /\ (forall c c', format_chunk display_with_spec c w = Some c' -> flag c' = flag c).
Proof.
  intros Hps. split; [apply format_chunk_template, Hps|].
  split; [apply piece_value_formats|]. split; [apply piece_value_formats|].
  intros c c'. apply format_chunk_flag.
Qed.

Lemma format_chunk_substitutes_witness :
  let ps := [PText "select='between(t,"; PHole "start"; PText ",";
             PHole "end"; PText ")',setpts=N/FRAME_RATE/TB"] in
  let w := {| start := 2; end_ := 12 |} in
  forallb piece_wf ps = true
  /\ (format_chunk spec_refused {| flag := "-vf"; value := template_of ps |} w
      = (fun v => {| flag := "-vf"; value := v |}) <$> expand (formats w) ps
      /\ piece_value (formats w) (PHole "start") = Some (display_u32 (start w))
      /\ piece_value (formats w) (PHole "end") = Some (display_u32 (end_ w))
      /\ (forall c c', format_chunk spec_refused c w = Some c' -> flag c' = flag c)).
Proof.
  intros ps w.
  assert (H : forallb piece_wf ps = true) by reflexivity.
  split; [exact H | apply (format_chunk_substitutes spec_refused "-vf" ps w H)].
Defined.

(** C6, as stated, fails on the value ["{start"]: its only placeholder
    name is [start], yet rendering panics, since the [{] is never closed;
    the closed form ["{start}"] renders. *)
Lemma format_chunk_unclosed_brace :
  format_chunk spec_refused {| flag := "-vf"; value := "{start" |}
    {| start := 2; end_ := 12 |} = None
  /\ format_chunk spec_refused {| flag := "-vf"; value := "{start}" |}
    {| start := 2; end_ := 12 |} = Some {| flag := "-vf"; value := "2" |}.
Proof. split; reflexivity. Qed.

(** C6 (amended): for a template value written from literal text without
    braces, escaped braces [{{] / [}}] and placeholders [{name}] without a
    format spec, rendering fails exactly when some placeholder name is
    neither [start] nor [end]; outside that class failing is not tied to
    unknown names: the unclosed ["{start"] names only [start] and fails. *)
Theorem format_chunk_fails_iff (display_with_spec : string -> Z -> option string)
  (f : string) (ps : list piece) (w : TargetTimeStamp) :
  forallb piece_wf ps = true ->
  (format_chunk display_with_spec {| flag := f; value := template_of ps |} w = None
   <-> Exists (fun n => n <> "start" /\ n <> "end") (hole_names ps))
  /\ format_chunk display_with_spec {| flag := f; value := "{start" |} w = None.
Proof.
  intros Hps. split; [|reflexivity].
  rewrite format_chunk_template by exact Hps.
  assert (Hiff : forall n, formats w !! n = None <-> n <> "start" /\ n <> "end").
  { intros n. rewrite formats_lookup.
    destruct (String.eqb_spec n "start") as [->|H1]; [split; [discriminate | tauto]|].
    destruct (String.eqb_spec n "end") as [->|H2]; [split; [discriminate | tauto]|].
    tauto. }
  transitivity (expand (formats w) ps = None).
  - destruct (expand (formats w) ps); simpl; split; congruence.
  - rewrite expand_none. split; intros H; (eapply Exists_impl; [exact H|]); intros n; apply Hiff.
Qed.

Lemma format_chunk_fails_iff_witness :
  let ps := [PText "x"; PHole "start"; PEscOpen; PHole "other"; PEscClose] in
  let w := {| start := 2; end_ := 12 |} in
  forallb piece_wf ps = true
  /\ ((format_chunk spec_refused {| flag := "-af"; value := template_of ps |} w = None
       <-> Exists (fun n => n <> "start" /\ n <> "end") (hole_names ps))
      /\ format_chunk spec_refused {| flag := "-af"; value := "{start" |} w = None).
Proof.
  intros ps w.
  assert (H : forallb piece_wf ps = true) by reflexivity.
  split; [exact H | apply (format_chunk_fails_iff spec_refused "-af" ps w H)].
Defined.

(* ------------------------------------------------------------------ *)
(** ** Argument rendering *)

(** C4: [render_arguments] yields, in order, the input flag, the input
    path, the video-filter flag, the rendered video filter, the
    audio-filter flag, the rendered audio filter, ["-y"] and the output
    path with no flag before it; for input ["in.mp4"], output ["out.mp4"]
    and the window [2, 12] the sequence is exactly the one listed. *)
Theorem render_arguments_layout (display_with_spec : string -> Z -> option string)
  (c : ClipCommand) :
  render_arguments display_with_spec c
  = match format_chunk display_with_spec (video_filter c) (target c),
          format_chunk display_with_spec (audio_filter c) (target c) with
    | Some vf, Some af =>
        Some [flag (input c); value (input c);
              flag (video_filter c); value vf;
              flag (audio_filter c); value af;
              "-y"; value (output c)]
    | _, _ => None
    end
  /\ render_arguments display_with_spec
       (from_args {| args_input := "in.mp4"; args_output := "out.mp4";
                     args_duration := 10; args_offset := 2 |})
     = Some ["-i"; "in.mp4";
             "-vf"; "select='between(t,2,12)',setpts=N/FRAME_RATE/TB";
             "-af"; "aselect='between(t,2,12)',asetpts=N/SR/TB";
             "-y"; "out.mp4"].
Proof.
  split; [|reflexivity].
  unfold render_arguments.
  destruct (format_chunk display_with_spec (video_filter c) (target c)) as [vf|] eqn:E1;
    [|reflexivity].
  destruct (format_chunk display_with_spec (audio_filter c) (target c)) as [af|] eqn:E2;
    [|reflexivity].
  apply format_chunk_flag in E1, E2. rewrite <- E1, <- E2. reflexivity.
Qed.

(** C7: rendering is deterministic: rendering a command twice, with the
    command as the first call leaves it, gives the same sequence and
    leaves the command unchanged; rendering a template against the same
    window twice gives the same result. *)
Theorem render_deterministic (display_with_spec : string -> Z -> option string)
  (c : ClipCommand) (t : CommandChunk) (w : TargetTimeStamp) :
  (let '(r1, c1) := render_arguments_st display_with_spec c in
   let '(r2, c2) := render_arguments_st display_with_spec c1 in
   r1 = r2 /\ c1 = c /\ c2 = c)
  /\ format_chunk display_with_spec t w = format_chunk display_with_spec t w.
Proof. split; [unfold render_arguments_st; auto | reflexivity]. Qed.

(** C9: the command built from [Args] has the executable ["ffmpeg"], the
    flags ["-i"], ["-vf"], ["-af"], ["-o"] and the two fixed filter
    templates whatever the arguments; only the input path, the output path
    and the window [new offset duration] come from the arguments. *)
Theorem from_args_fixed_parts (a b : Args) :
  executable (from_args a) = "ffmpeg"
  /\ input (from_args a) = {| flag := "-i"; value := args_input a |}
  /\ video_filter (from_args a)
     = {| flag := "-vf";
          value := "select='between(t,{start},{end})',setpts=N/FRAME_RATE/TB" |}
  /\ audio_filter (from_args a)
     = {| flag := "-af"; value := "aselect='between(t,{start},{end})',asetpts=N/SR/TB" |}
  /\ output (from_args a) = {| flag := "-o"; value := args_output a |}
  /\ target (from_args a) = new (args_offset a) (args_duration a)
  /\ (args_input a = args_input b -> args_output a = args_output b ->
      args_offset a = args_offset b -> args_duration a = args_duration b ->
      from_args a = from_args b).
Proof.
  repeat split.
  intros Hi Ho Hoff Hd. unfold from_args. rewrite Hi, Ho, Hoff, Hd. reflexivity.
Qed.

(** C10: in a rendered sequence the input path and the output path are
    the command's strings unchanged (no placeholder substitution): the
    input path is the second element and the output path the last. *)
Theorem render_paths_verbatim (display_with_spec : string -> Z -> option string)
  (c : ClipCommand) (l : list string) :
  render_arguments display_with_spec c = Some l ->
  nth_error l 1 = Some (value (input c))
  /\ nth_error l 7 = Some (value (output c))
  /\ last l = Some (value (output c))
  /\ length l = 8%nat.
Proof.
  rewrite (proj1 (render_arguments_layout display_with_spec c)).
  destruct (format_chunk display_with_spec (video_filter c) (target c)),
    (format_chunk display_with_spec (audio_filter c) (target c)); try discriminate.
  intros H. injection H as <-. repeat split.
Qed.

Lemma render_paths_verbatim_witness :
  let c := from_args {| args_input := "in_{start}.mp4"; args_output := "out_{end}.mp4";
                        args_duration := 10; args_offset := 2 |} in
  let l := ["-i"; "in_{start}.mp4";
            "-vf"; "select='between(t,2,12)',setpts=N/FRAME_RATE/TB";
            "-af"; "aselect='between(t,2,12)',asetpts=N/SR/TB";
            "-y"; "out_{end}.mp4"] in
  render_arguments spec_refused c = Some l
  /\ (nth_error l 1 = Some (value (input c))
      /\ nth_error l 7 = Some (value (output c))
      /\ last l = Some (value (output c))
      /\ length l = 8%nat).
Proof.
  intros c l.
  assert (H : render_arguments spec_refused c = Some l) by reflexivity.
  split; [exact H | apply (render_paths_verbatim spec_refused c l H)].
Defined.

(* ------------------------------------------------------------------ *)
(** ** Further properties of the library and of [main] *)

Arguments display_u32 : simpl never.

Lemma video_template_is_pieces :
  video_filter_template =
  template_of [PText "select='between(t,"; PHole "start"; PText ",";
               PHole "end"; PText ")',setpts=N/FRAME_RATE/TB"].
Proof. reflexivity. Qed.

Lemma audio_template_is_pieces :
  audio_filter_template =
  template_of [PText "aselect='between(t,"; PHole "start"; PText ",";
               PHole "end"; PText ")',asetpts=N/SR/TB"].
Proof. reflexivity. Qed.

(** X1: the two filter templates of a command built from [Args] render
    for every window (no panic), to the window's bounds in decimal; the
    argument list is exactly the eight strings below. *)
Theorem render_fixed_templates (display_with_spec : string -> Z -> option string)
  (a : Args) (w : TargetTimeStamp) :
  render_arguments display_with_spec (set_target (from_args a) w)
  = Some ["-i"; args_input a; "-vf"; video_filter_value w;
          "-af"; audio_filter_value w; "-y"; args_output a].
Proof.
  unfold render_arguments.
  change (video_filter (set_target (from_args a) w))
    with {| flag := "-vf"; value := video_filter_template |}.
  change (audio_filter (set_target (from_args a) w))
    with {| flag := "-af"; value := audio_filter_template |}.
  change (target (set_target (from_args a) w)) with w.
  rewrite video_template_is_pieces, audio_template_is_pieces.
  rewrite !format_chunk_template by reflexivity.
  cbn [expand piece_value]. rewrite !formats_lookup. cbn [String.eqb Ascii.eqb Bool.eqb].
  cbn [fmap option_fmap option_map].
  unfold video_filter_value, audio_filter_value.
  rewrite !string_app_nil_r. reflexivity.
Qed.

Lemma main_run_probed (display_with_spec : string -> Z -> option string)
  (read_duration : list Byte.byte -> option f32)
  (spawn : string -> list string -> option ProcOutput) (a : Args) (L : f32) :
  get_max_length read_duration spawn (args_input a) = Some L ->
  let w := bind_values (new (args_offset a) (args_duration a)) L in
  let ffmpeg_args := ["-i"; args_input a; "-vf"; video_filter_value w;
                      "-af"; audio_filter_value w; "-y"; args_output a] in
  main_run display_with_spec read_duration spawn a
  = ([("ffprobe", ffprobe_args (args_input a)); ("ffmpeg", ffmpeg_args)],
     match spawn "ffmpeg" ffmpeg_args with
     | None => Panicked
     | Some out => if status_success out then Exited_ok else Panicked
     end).
Proof.
  intros HL w ffmpeg_args. unfold main_run.
  change (value (input (from_args a))) with (args_input a). rewrite HL.
  change (target (from_args a)) with (new (args_offset a) (args_duration a)).
  rewrite render_fixed_templates.
  cbn [executable set_target from_args]. subst w ffmpeg_args.
  destruct (spawn "ffmpeg" _) as [out|]; reflexivity.
Qed.

(** X2: when [ffprobe] yields a length [L], [main] starts [ffprobe] on
    the input path and then [ffmpeg] with the rendered arguments of the
    window clamped to [L as u32]: its start is [min offset (L as u32)] and
    [start <= end <= L as u32]. *)
Theorem main_ffmpeg_window (display_with_spec : string -> Z -> option string)
  (read_duration : list Byte.byte -> option f32)
  (spawn : string -> list string -> option ProcOutput) (a : Args) (L : f32) :
  is_u32 (args_offset a) -> is_u32 (args_duration a) ->
  get_max_length read_duration spawn (args_input a) = Some L ->
  let w := bind_values (new (args_offset a) (args_duration a)) L in
  fst (main_run display_with_spec read_duration spawn a)
  = [("ffprobe", ffprobe_args (args_input a));
     ("ffmpeg", ["-i"; args_input a; "-vf"; video_filter_value w;
                 "-af"; audio_filter_value w; "-y"; args_output a])]
  /\ start w = Z.min (args_offset a) (f32_as_u32 L)
  /\ start w <= end_ w <= f32_as_u32 L.
Proof.
  intros Ho Hd HL w.
  rewrite (main_run_probed display_with_spec read_duration spawn a L HL).
  split; [reflexivity|]. subst w.
  rewrite bind_values_start, bind_values_end, new_start.
  pose proof (proj1 (window_invariant _ _ Ho Hd)) as Hok.
  unfold window_ok in Hok. rewrite new_start in Hok.
  split; [reflexivity | lia].
Qed.

(** An environment where every process starts and succeeds with an empty
    output, and the reading of that output gives 5.9. *)
Definition spawn_all_ok : string -> list string -> option ProcOutput :=
  fun _ _ => Some {| status_success := true; stdout := [] |}.

Definition read_5_9 : list Byte.byte -> option f32 := fun _ => Some f32_5_9.

Definition args_example : Args :=
  {| args_input := "in.mp4"; args_output := "out.mp4";
     args_duration := 10; args_offset := 2 |}.

Lemma main_ffmpeg_window_witness :
  is_u32 (args_offset args_example) /\ is_u32 (args_duration args_example) /\
  get_max_length read_5_9 spawn_all_ok (args_input args_example) = Some f32_5_9 /\
  (let w := bind_values (new (args_offset args_example) (args_duration args_example)) f32_5_9 in
   fst (main_run spec_refused read_5_9 spawn_all_ok args_example)
   = [("ffprobe", ffprobe_args (args_input args_example));
      ("ffmpeg", ["-i"; args_input args_example; "-vf"; video_filter_value w;
                  "-af"; audio_filter_value w; "-y"; args_output args_example])]
   /\ start w = Z.min (args_offset args_example) (f32_as_u32 f32_5_9)
   /\ start w <= end_ w <= f32_as_u32 f32_5_9).
Proof.
  assert (H1 : is_u32 (args_offset args_example))
    by (cbn; unfold is_u32, u32_max, u32_modulus; lia).
  assert (H2 : is_u32 (args_duration args_example))
    by (cbn; unfold is_u32, u32_max, u32_modulus; lia).
  assert (H3 : get_max_length read_5_9 spawn_all_ok (args_input args_example) = Some f32_5_9)
    by reflexivity.
  split; [exact H1 | split; [exact H2 | split; [exact H3|]]].
  exact (main_ffmpeg_window spec_refused read_5_9 spawn_all_ok args_example f32_5_9 H1 H2 H3).
Defined.

(** X3: [main] always starts [ffprobe] first; when no length is obtained
    it panics having started nothing else, and it ends normally exactly
    when a length was obtained and [ffmpeg], started with the rendered
    arguments, exits successfully. *)
Theorem main_outcome (display_with_spec : string -> Z -> option string)
  (read_duration : list Byte.byte -> option f32)
  (spawn : string -> list string -> option ProcOutput) (a : Args) :
  head (fst (main_run display_with_spec read_duration spawn a))
    = Some ("ffprobe", ffprobe_args (args_input a))
  /\ (get_max_length read_duration spawn (args_input a) = None ->
      main_run display_with_spec read_duration spawn a
      = ([("ffprobe", ffprobe_args (args_input a))], Panicked))
  /\ (snd (main_run display_with_spec read_duration spawn a) = Exited_ok <->
      exists L ffmpeg_args out,
        get_max_length read_duration spawn (args_input a) = Some L
        /\ In ("ffmpeg", ffmpeg_args) (fst (main_run display_with_spec read_duration spawn a))
        /\ spawn "ffmpeg" ffmpeg_args = Some out
        /\ status_success out = true).
Proof.
  destruct (get_max_length read_duration spawn (args_input a)) as [L|] eqn:HL.
  - rewrite (main_run_probed display_with_spec read_duration spawn a L HL).
    cbn [fst snd head]. split; [reflexivity|]. split; [discriminate|].
    set (ffmpeg_args := ["-i"; args_input a; "-vf";
          video_filter_value (bind_values (new (args_offset a) (args_duration a)) L);
          "-af"; audio_filter_value (bind_values (new (args_offset a) (args_duration a)) L);
          "-y"; args_output a]).
    split.
    + destruct (spawn "ffmpeg" ffmpeg_args) as [out|] eqn:Hs; [|discriminate].
      destruct (status_success out) eqn:Hst; [|discriminate].
      intros _. exists L, ffmpeg_args, out. repeat split; auto.
      right; left; reflexivity.
    + intros (L' & args' & out & HL' & Hin & Hs & Hst).
      simpl in Hin. destruct Hin as [Hin|[Hin|[]]]; [discriminate|].
      injection Hin as <-. rewrite Hs, Hst. reflexivity.
  - unfold main_run.
    change (value (input (from_args a))) with (args_input a). rewrite HL.
    split; [reflexivity|]. split; [reflexivity|].
    split; [discriminate|]. intros (L & _ & _ & H & _). discriminate.
Qed.

(** X4: [main] never looks at the exit status of [ffprobe]: two
    environments that differ only in that status (same standard output,
    same behaviour of every other process) give the same run. *)
Theorem main_ignores_probe_status (display_with_spec : string -> Z -> option string)
  (read_duration : list Byte.byte -> option f32)
  (spawn1 spawn2 : string -> list string -> option ProcOutput) (a : Args) :
  (forall exe args, exe <> "ffprobe" -> spawn1 exe args = spawn2 exe args) ->
  option_map stdout (spawn1 "ffprobe" (ffprobe_args (args_input a)))
  = option_map stdout (spawn2 "ffprobe" (ffprobe_args (args_input a))) ->
  main_run display_with_spec read_duration spawn1 a
  = main_run display_with_spec read_duration spawn2 a.
Proof.
  intros Hother Hprobe.
  assert (Hg : get_max_length read_duration spawn1 (args_input a)
               = get_max_length read_duration spawn2 (args_input a)).
  { unfold get_max_length.
    destruct (spawn1 "ffprobe" _), (spawn2 "ffprobe" _); simpl in Hprobe;
      try discriminate; [injection Hprobe as ->|]; reflexivity. }
  destruct (get_max_length read_duration spawn1 (args_input a)) as [L|] eqn:HL.
  - rewrite (main_run_probed display_with_spec read_duration spawn1 a L HL).
    symmetry in Hg.
    rewrite (main_run_probed display_with_spec read_duration spawn2 a L Hg).
    rewrite Hother by discriminate. reflexivity.
  - unfold main_run. change (value (input (from_args a))) with (args_input a).
    rewrite HL, <- Hg. reflexivity.
Qed.

Definition spawn_probe_fails : string -> list string -> option ProcOutput :=
  fun exe _ => Some {| status_success := negb (String.eqb exe "ffprobe"); stdout := [] |}.

Lemma main_ignores_probe_status_witness :
  (forall exe args, exe <> "ffprobe" -> spawn_all_ok exe args = spawn_probe_fails exe args)
  /\ option_map stdout (spawn_all_ok "ffprobe" (ffprobe_args (args_input args_example)))
     = option_map stdout (spawn_probe_fails "ffprobe" (ffprobe_args (args_input args_example)))
  /\ main_run spec_refused read_5_9 spawn_all_ok args_example
     = main_run spec_refused read_5_9 spawn_probe_fails args_example.
Proof.
  assert (H1 : forall exe args, exe <> "ffprobe" ->
            spawn_all_ok exe args = spawn_probe_fails exe args).
  { intros exe args Hne. unfold spawn_all_ok, spawn_probe_fails.
    destruct (String.eqb_spec exe "ffprobe"); [contradiction | reflexivity]. }
  assert (H2 : option_map stdout (spawn_all_ok "ffprobe" (ffprobe_args (args_input args_example)))
     = option_map stdout (spawn_probe_fails "ffprobe" (ffprobe_args (args_input args_example))))
    by reflexivity.
  split; [exact H1 | split; [exact H2|]].
  exact (main_ignores_probe_status spec_refused read_5_9 spawn_all_ok spawn_probe_fails
           args_example H1 H2).
Defined.

(** X5: [bind_values] leaves a window that already lies within the
    truncated media length unchanged. *)
Theorem bind_values_within (w : TargetTimeStamp) (L : f32) :
  start w <= f32_as_u32 L -> end_ w <= f32_as_u32 L -> bind_values w L = w.
Proof.
  intros Hs He. destruct w as [s e]. unfold bind_values. simpl in *.
  destruct (f32_as_u32 L <? s) eqn:E1; [apply Z.ltb_lt in E1; lia|].
  destruct (f32_as_u32 L <? e) eqn:E2; [apply Z.ltb_lt in E2; lia|].
  reflexivity.
Qed.

Lemma bind_values_within_witness :
  start {| start := 1; end_ := 4 |} <= f32_as_u32 f32_5_9
  /\ end_ {| start := 1; end_ := 4 |} <= f32_as_u32 f32_5_9
  /\ bind_values {| start := 1; end_ := 4 |} f32_5_9 = {| start := 1; end_ := 4 |}.
Proof.
  assert (H1 : start {| start := 1; end_ := 4 |} <= f32_as_u32 f32_5_9) by (vm_compute; discriminate).
  assert (H2 : end_ {| start := 1; end_ := 4 |} <= f32_as_u32 f32_5_9) by (vm_compute; discriminate).
  split; [exact H1 | split; [exact H2 | exact (bind_values_within _ _ H1 H2)]].
Defined.

(** X6: for any window, [bind_values] sets each bound to the smaller of
    itself and the media length cast to [u32], so it only lowers the
    bounds and never leaves one above [L as u32]. *)
Theorem bind_values_bounds (w : TargetTimeStamp) (L : f32) :
  start (bind_values w L) = Z.min (start w) (f32_as_u32 L)
  /\ end_ (bind_values w L) = Z.min (end_ w) (f32_as_u32 L)
  /\ start (bind_values w L) <= start w
  /\ end_ (bind_values w L) <= end_ w
  /\ start (bind_values w L) <= f32_as_u32 L
  /\ end_ (bind_values w L) <= f32_as_u32 L.
Proof.
  rewrite bind_values_start, bind_values_end.
  split; [reflexivity | split; [reflexivity | lia]].
Qed.

(** X7: clamping against two media lengths in either order gives the
    same window (clamping to the smaller one). *)
Theorem bind_values_comm (w : TargetTimeStamp) (L1 L2 : f32) :
  bind_values (bind_values w L1) L2 = bind_values (bind_values w L2) L1.
Proof.
  assert (H : forall w', w' = {| start := start w'; end_ := end_ w' |})
    by (intros []; reflexivity).
  rewrite (H (bind_values (bind_values w L1) L2)),
          (H (bind_values (bind_values w L2) L1)).
  rewrite !bind_values_start, !bind_values_end. f_equal; lia.
Qed.

Lemma f32_as_u32_zero (L : f32) :
  (L = F32_nan \/ L = F32_inf true \/ exists t, f32_trunc L = Some t /\ t <= 0) ->
  f32_as_u32 L = 0.
Proof.
  intros [->|[->|(t & Ht & Hle)]]; [reflexivity | reflexivity|].
  destruct L as [|[]|m e]; try discriminate. unfold f32_as_u32. rewrite Ht. simpl.
  destruct (t <? 0) eqn:E; [reflexivity|]. apply Z.ltb_ge in E.
  assert (t = 0) as -> by lia. reflexivity.
Qed.

Lemma f32_as_u32_max (L : f32) :
  (L = F32_inf false \/ exists t, f32_trunc L = Some t /\ u32_max <= t) ->
  f32_as_u32 L = u32_max.
Proof.
  intros [->|(t & Ht & Hle)]; [reflexivity|].
  destruct L as [|[]|m e]; try discriminate. unfold f32_as_u32. rewrite Ht. simpl.
  unfold u32_max, u32_modulus in *.
  destruct (t <? 0) eqn:E1; [apply Z.ltb_lt in E1; lia|].
  destruct (2 ^ 32 - 1 <? t) eqn:E2; [reflexivity|]. apply Z.ltb_ge in E2.
  lia.
Qed.

(** X8: a NaN, negative-infinite, or finite media length below 1 clamps
    every [u32] window to [0, 0] (an empty clip at the start). *)
Theorem bind_values_collapse (w : TargetTimeStamp) (L : f32) :
  (L = F32_nan \/ L = F32_inf true \/ exists t, f32_trunc L = Some t /\ t <= 0) ->
  is_u32 (start w) -> is_u32 (end_ w) ->
  bind_values w L = {| start := 0; end_ := 0 |}.
Proof.
  intros HL Hs He. pose proof (f32_as_u32_zero L HL) as H0.
  unfold is_u32 in *. destruct w as [s e]. unfold bind_values. simpl in *. rewrite H0.
  destruct (0 <? s) eqn:E1, (0 <? e) eqn:E2; try reflexivity;
    apply Z.ltb_ge in E1 || apply Z.ltb_ge in E2;
    [assert (e = 0) as -> by lia | assert (s = 0) as -> by lia
    | assert (s = 0) as -> by lia; assert (e = 0) as -> by (apply Z.ltb_ge in E2; lia)];
    reflexivity.
Qed.

Lemma bind_values_collapse_witness :
  (F32_fin (-3) (-1) = F32_nan \/ F32_fin (-3) (-1) = F32_inf true
   \/ exists t, f32_trunc (F32_fin (-3) (-1)) = Some t /\ t <= 0)
  /\ is_u32 (start {| start := 7; end_ := 17 |}) /\ is_u32 (end_ {| start := 7; end_ := 17 |})
  /\ bind_values {| start := 7; end_ := 17 |} (F32_fin (-3) (-1)) = {| start := 0; end_ := 0 |}.
Proof.
  assert (H1 : F32_fin (-3) (-1) = F32_nan \/ F32_fin (-3) (-1) = F32_inf true
   \/ exists t, f32_trunc (F32_fin (-3) (-1)) = Some t /\ t <= 0)
    by (right; right; exists (-1); split; [reflexivity | lia]).
  assert (H2 : is_u32 (start {| start := 7; end_ := 17 |}))
    by (cbn; unfold is_u32, u32_max, u32_modulus; lia).
  assert (H3 : is_u32 (end_ {| start := 7; end_ := 17 |}))
    by (cbn; unfold is_u32, u32_max, u32_modulus; lia).
  split; [exact H1 | split; [exact H2 | split; [exact H3|]]].
  exact (bind_values_collapse _ _ H1 H2 H3).
Defined.

(** X9: a positive-infinite media length, or one of at least 4294967295
    seconds, leaves every [u32] window unchanged. *)
Theorem bind_values_unbounded_length (w : TargetTimeStamp) (L : f32) :
  (L = F32_inf false \/ exists t, f32_trunc L = Some t /\ u32_max <= t) ->
  is_u32 (start w) -> is_u32 (end_ w) ->
  bind_values w L = w.
Proof.
  intros HL Hs He. apply bind_values_within; rewrite (f32_as_u32_max L HL);
    unfold is_u32 in *; lia.
Qed.

Lemma bind_values_unbounded_length_witness :
  (F32_inf false = F32_inf false \/ exists t, f32_trunc (F32_inf false) = Some t /\ u32_max <= t)
  /\ is_u32 (start (new 4294967290 100)) /\ is_u32 (end_ (new 4294967290 100))
  /\ bind_values (new 4294967290 100) (F32_inf false) = new 4294967290 100.
Proof.
  assert (H1 : F32_inf false = F32_inf false
               \/ exists t, f32_trunc (F32_inf false) = Some t /\ u32_max <= t)
    by (left; reflexivity).
  assert (H2 : is_u32 (start (new 4294967290 100)))
    by (vm_compute; split; discriminate).
  assert (H3 : is_u32 (end_ (new 4294967290 100)))
    by (vm_compute; split; discriminate).
  split; [exact H1 | split; [exact H2 | split; [exact H3|]]].
  exact (bind_values_unbounded_length _ _ H1 H2 H3).
Defined.

(** X10: a template value without braces (such as a file path) is
    copied unchanged by [format_chunk], whatever the window. *)
Theorem format_chunk_plain_text (display_with_spec : string -> Z -> option string)
  (c : CommandChunk) (w : TargetTimeStamp) :
  no_brace (value c) = true ->
  format_chunk display_with_spec c w = Some c.
Proof.
  intros Hv. destruct c as [f v]. simpl in Hv.
  pose proof (format_text display_with_spec (formats w) v "" Hv) as H.
  rewrite string_app_nil_r in H.
  unfold format_chunk, format. simpl. rewrite H. simpl.
  rewrite string_app_nil_r. reflexivity.
Qed.

Lemma format_chunk_plain_text_witness :
  no_brace (value {| flag := "-i"; value := "clips/in.mp4" |}) = true
  /\ format_chunk spec_refused {| flag := "-i"; value := "clips/in.mp4" |}
       {| start := 2; end_ := 12 |}
     = Some {| flag := "-i"; value := "clips/in.mp4" |}.
Proof.
  assert (H : no_brace (value {| flag := "-i"; value := "clips/in.mp4" |}) = true)
    by reflexivity.
  split; [exact H | exact (format_chunk_plain_text spec_refused _ _ H)].
Defined.

(** X11: for a command built from [Args], the output flag ["-o"] never
    appears in the rendered arguments, unless one of the paths is itself
    ["-o"]. *)
Theorem render_no_output_flag (display_with_spec : string -> Z -> option string)
  (a : Args) (l : list string) :
  args_input a <> "-o" -> args_output a <> "-o" ->
  render_arguments display_with_spec (from_args a) = Some l ->
  ~ In "-o" l.
Proof.
  intros Hi Ho Hl.
  change (from_args a) with (set_target (from_args a) (new (args_offset a) (args_duration a)))
    in Hl.
  rewrite render_fixed_templates in Hl. injection Hl as <-.
  unfold video_filter_value, audio_filter_value.
  simpl. intros H.
  repeat destruct H as [H|H]; try congruence;
    rewrite ?string_app_cons in H; discriminate.
Qed.

Lemma render_no_output_flag_witness :
  args_input args_example <> "-o" /\ args_output args_example <> "-o"
  /\ render_arguments spec_refused (from_args args_example)
     = Some ["-i"; "in.mp4";
             "-vf"; "select='between(t,2,12)',setpts=N/FRAME_RATE/TB";
             "-af"; "aselect='between(t,2,12)',asetpts=N/SR/TB";
             "-y"; "out.mp4"]
  /\ ~ In "-o" ["-i"; "in.mp4";
                "-vf"; "select='between(t,2,12)',setpts=N/FRAME_RATE/TB";
                "-af"; "aselect='between(t,2,12)',asetpts=N/SR/TB";
                "-y"; "out.mp4"].
Proof.
  assert (H1 : args_input args_example <> "-o") by discriminate.
  assert (H2 : args_output args_example <> "-o") by discriminate.
  assert (H3 : render_arguments spec_refused (from_args args_example)
     = Some ["-i"; "in.mp4";
             "-vf"; "select='between(t,2,12)',setpts=N/FRAME_RATE/TB";
             "-af"; "aselect='between(t,2,12)',asetpts=N/SR/TB";
             "-y"; "out.mp4"]) by reflexivity.
  split; [exact H1 | split; [exact H2 | split; [exact H3|]]].
  exact (render_no_output_flag spec_refused args_example _ H1 H2 H3).
Defined.
